(** * Kistenliste: a shallow embedding of the aggregation logic

    Sources: [src/streamlit_app.py] (interactive dashboard) and
    [src/kistenliste_analyzer.py] (batch HTML report).

    Modelling choices:
    - Python [str] values are Rocq [string]s (byte strings); [str.strip()]
      removes the ASCII characters Python counts as whitespace, and
      [str.lower()] maps the ASCII letters A-Z to a-z.
    - A spreadsheet cell as [pd.read_excel] delivers it is a string, a number
      or missing ([NaN]).  After [.str.strip()] a column holds either a
      string or [NaN]; we write that as [option string] ([None] = [NaN]).
    - Python floats are modelled as exact rationals [Q].
    - [pd.Series.round(2)] is round-half-to-even at two decimals.
    - [sort_values(ascending=False)] and [value_counts()] are modelled by a
      stable descending insertion sort. *)

From Stdlib Require Import Ascii String List Bool Arith Lia ZArith QArith
  Qround Lqa Sorted Permutation DecimalString.
Import ListNotations.
Open Scope string_scope.
Open Scope nat_scope.

(** ** Python string primitives *)

Module Py.
Local Open Scope nat_scope.

(** Characters removed by [str.strip()] (ASCII part). *)
Definition is_space (c : ascii) : bool :=
  let n := nat_of_ascii c in
  ((9 <=? n) && (n <=? 13)) || ((28 <=? n) && (n <=? 32)).

Fixpoint lstrip_l (l : list ascii) : list ascii :=
  match l with
  | [] => []
  | c :: l' => if is_space c then lstrip_l l' else l
  end.

Definition rstrip_l (l : list ascii) : list ascii := rev (lstrip_l (rev l)).

Definition strip_l (l : list ascii) : list ascii := rstrip_l (lstrip_l l).

(** [s.strip()] *)
Definition strip (s : string) : string :=
  string_of_list_ascii (strip_l (list_ascii_of_string s)).

Definition lower_char (c : ascii) : ascii :=
  let n := nat_of_ascii c in
  if (65 <=? n) && (n <=? 90) then ascii_of_nat (n + 32) else c.

(** [s.lower()] *)
Fixpoint lower (s : string) : string :=
  match s with
  | EmptyString => EmptyString
  | String c s' => String (lower_char c) (lower s')
  end.

Fixpoint split_aux (sep : ascii) (s : string) (cur : string) : list string :=
  match s with
  | EmptyString => [cur]
  | String c s' =>
      if Ascii.eqb c sep then cur :: split_aux sep s' EmptyString
      else split_aux sep s' (cur ++ String c EmptyString)
  end.

(** [s.split(sep)] for a one-character separator. *)
Definition split (sep : ascii) (s : string) : list string :=
  split_aux sep s EmptyString.

(** [str(x)] of a cell that is a string or [NaN]. *)
Definition str (x : option string) : string :=
  match x with
  | Some s => s
  | None => "nan"
  end.

End Py.

(** ** Data model *)

(** A cell as [pd.read_excel] returns it. *)
Inductive Cell :=
| CStr (s : string)
| CNum (z : Z)
| CNaN.

(** One row of the sheet "Kistenliste".  The optional column "Anmerkung"
    is read as a string or missing; a row without the column behaves as a
    missing annotation ([row.get("Anmerkung", "")] yields [""], which the
    code skips exactly like ["nan"]). *)
Record Row := mkRow {
  r_name : Cell;
  r_bezahlt : Cell;
  r_grund : Cell;
  r_anmerkung : option string
}.

Inductive Status := Bezahlt | Offen.

Definition status_eqb (a b : Status) : bool :=
  match a, b with
  | Bezahlt, Bezahlt | Offen, Offen => true
  | _, _ => false
  end.

(** A row of the loaded DataFrame, with the added column [Bezahlt_Status]. *)
Record Entry := mkEntry {
  e_name : option string;
  e_bezahlt : option string;
  e_grund : Cell;
  e_anmerkung : option string;
  e_status : Status
}.

(** ** Loading ([load_data]) *)

(** [series.str.strip()]: strings are stripped, anything else becomes NaN. *)
Definition str_strip (c : Cell) : option string :=
  match c with
  | CStr s => Some (Py.strip s)
  | _ => None
  end.

(** [series.fillna("")] *)
Definition fillna_empty (c : Cell) : Cell :=
  match c with
  | CNaN => CStr ""
  | c => c
  end.

(** [lambda x: "Bezahlt" if x == "J" else "Offen"] *)
Definition classify (x : option string) : Status :=
  match x with
  | Some s => if String.eqb s "J" then Bezahlt else Offen
  | None => Offen
  end.

Definition load_row (r : Row) : Entry :=
  let b := str_strip (fillna_empty (r_bezahlt r)) in
  mkEntry (str_strip (r_name r)) b (r_grund r) (r_anmerkung r) (classify b).

(** Outcome of a Python computation that may raise. *)
Inductive Exc (A : Type) :=
| Raise (msg : string)
| Ok (a : A).
Arguments Raise {A} msg.
Arguments Ok {A} a.






(** ** Sorting *)

Section Sort.
Variable A : Type.
(** [before x y]: [x] may be placed before [y] (its key is at least as
    large, for a descending sort). *)
Variable before : A -> A -> bool.

Fixpoint insert_sorted (x : A) (l : list A) : list A :=
  match l with
  | [] => [x]
  | y :: l' => if before x y then x :: l else y :: insert_sorted x l'
  end.

(** Stable insertion sort: of two elements with equal keys, the one that
    comes first in the input comes first in the output. *)
Definition sort_stable (l : list A) : list A := fold_right insert_sorted [] l.

End Sort.
Arguments insert_sorted {A} before x l.
Arguments sort_stable {A} before l.

(** ** Open boxes per person ([create_open_boxes_table]) *)

Open Scope Q_scope.

(** The dict [name_counts], as a list of (key, value) pairs in insertion
    order. *)
Definition Dict := list (string * Q).

(** [d.get(k, 0)] *)
Fixpoint dict_get (d : Dict) (k : string) : Q :=
  match d with
  | [] => 0
  | (k', v) :: d' => if String.eqb k' k then v else dict_get d' k
  end.

(** [d[k] = v]: overwrite in place, or append a new key. *)
Fixpoint dict_set (d : Dict) (k : string) (v : Q) : Dict :=
  match d with
  | [] => [(k, v)]
  | (k', v') :: d' => if String.eqb k' k then (k', v) :: d' else (k', v') :: dict_set d' k v
  end.

(** [d[k] = d.get(k, 0) + v] *)
Definition dict_add (d : Dict) (k : string) (v : Q) : Dict :=
  dict_set d k (dict_get d k + v).

Definition SENTINEL : string := "geteilte kisten".

(** [name.lower() == "geteilte kisten"] *)
Definition is_sentinel (name : string) : bool := String.eqb (Py.lower name) SENTINEL.

(** [[n.strip() for n in anmerkung.split(",") if n.strip()]] *)
Definition shared_names (anmerkung : string) : list string :=
  map Py.strip (filter (fun n => negb (String.eqb (Py.strip n) "")) (Py.split "," anmerkung)).

(** [1.0 / len(shared_names) if shared_names else 0] *)
Definition shared_fraction (ns : list string) : Q :=
  match ns with
  | [] => 0
  | _ => 1 / inject_Z (Z.of_nat (length ns))
  end.

(** [str(row.get("Anmerkung", ""))] *)
Definition anmerkung_str (a : option string) : string := Py.str a.

(** The shared-boxes branch of the loop: [if anmerkung and anmerkung !=
    "nan":] each listed name gets [fraction] added. *)
Definition apportion (name_counts : Dict) (anmerkung : string) : Dict :=
  if negb (String.eqb anmerkung "") && negb (String.eqb anmerkung "nan") then
    let ns := shared_names anmerkung in
    let fraction := shared_fraction ns in
    fold_left (fun d n => dict_add d n fraction) ns name_counts
  else name_counts.

(** The body of the [for _, row in open_df.iterrows()] loop. *)
Definition open_step (name_counts : Dict) (row : Entry) : Dict :=
  let name := Py.strip (Py.str (e_name row)) in
  if is_sentinel name then
    apportion name_counts (anmerkung_str (e_anmerkung row))
  else dict_add name_counts name 1.

(** [open_df = df[df["Bezahlt_Status"] == "Offen"]] *)
Definition open_rows (df : list Entry) : list Entry :=
  filter (fun e => status_eqb (e_status e) Offen) df.

(** [name_counts] after the loop. *)
Definition open_name_counts (df : list Entry) : Dict :=
  fold_left open_step (open_rows df) [].

(** numpy's round-half-to-even of a rational to an integer. *)
Definition round_half_even (x : Q) : Z :=
  let f := Qfloor x in
  let d := x - inject_Z f in
  if Qlt_le_dec d (1 # 2) then f
  else if Qeq_dec d (1 # 2) then (if Z.even f then f else f + 1)%Z
  else (f + 1)%Z.

(** [series.round(2)] on one value. *)
Definition round2 (x : Q) : Q := Qred (round_half_even (x * 100) # 100).

(** [result.sort_values("Offene Kisten", ascending=False)] *)
Definition sort_open_desc (rows : Dict) : Dict :=
  sort_stable (fun x y => Qle_bool (snd y) (snd x)) rows.

Definition create_open_boxes_table (df : list Entry) : Dict :=
  let name_counts := open_name_counts df in
  match name_counts with
  | [] => []
  | _ => map (fun '(n, v) => (n, round2 v)) (sort_open_desc name_counts)
  end.


(** What one open row alone adds to the tally of [p]: the loop body run
    on an empty dict. *)
Definition row_credit (row : Entry) (p : string) : Q := dict_get (open_step [] row) p.

(** The sum of the credits of [rows] to [p]. *)
Definition credits_sum (rows : list Entry) (p : string) : Q :=
  fold_right (fun row acc => row_credit row p + acc) 0 rows.

Close Scope Q_scope.

(** ** Per-person counts: [value_counts], ranking, person chart *)

(** Column [df["Name"]]. *)
Definition names_col (df : list Entry) : list (option string) := map e_name df.

(** [dropna]: [value_counts], [nunique] and [groupby] skip NaN names. *)
Fixpoint dropna (l : list (option string)) : list string :=
  match l with
  | [] => []
  | Some s :: l' => s :: dropna l'
  | None :: l' => dropna l'
  end.

Definition count_in (n : string) (l : list string) : nat :=
  length (filter (String.eqb n) l).

(** Distinct values in order of first occurrence. *)
Fixpoint uniques_aux (seen : list string) (l : list string) : list string :=
  match l with
  | [] => []
  | x :: l' =>
      if existsb (String.eqb x) seen then uniques_aux seen l'
      else x :: uniques_aux (x :: seen) l'
  end.

Definition uniques (l : list string) : list string := uniques_aux [] l.

(** [df["Name"].value_counts()]: (name, count) pairs, largest count first,
    equal counts in order of first occurrence. *)
Definition value_counts (col : list (option string)) : list (string * nat) :=
  let ns := dropna col in
  sort_stable (fun x y => snd y <=? snd x) (map (fun n => (n, count_in n ns)) (uniques ns)).

(** [df["Name"].nunique()] *)
Definition nunique (col : list (option string)) : nat := length (uniques (dropna col)).

(** UTF-8 of a four-byte medal emoji F0 9F A5 xx. *)
Definition emoji4 (last : nat) : string :=
  String (ascii_of_nat 240) (String (ascii_of_nat 159) (String (ascii_of_nat 165)
    (String (ascii_of_nat last) EmptyString))).

(** [medals.get(x, "")] with [medals = {1: gold, 2: silver, 3: bronze}] *)
Definition medal (rang : nat) : string :=
  match rang with
  | 1 => emoji4 135
  | 2 => emoji4 136
  | 3 => emoji4 137
  | _ => ""
  end.

Record RankRow := mkRankRow {
  rang : nat;
  medaille : string;
  rname : string;
  anzahl : nat
}.

Fixpoint number_from (k : nat) (l : list (string * nat)) : list RankRow :=
  match l with
  | [] => []
  | (n, c) :: l' => mkRankRow k (medal k) n c :: number_from (S k) l'
  end.

(** [create_ranking_table] (identical in both source files). *)
Definition create_ranking_table (df : list Entry) : list RankRow :=
  number_from 1 (value_counts (names_col df)).

(** [df[df["Bezahlt_Status"] == st].groupby("Name").size().get(name, 0)] *)
Definition group_size (st : Status) (df : list Entry) (name : string) : nat :=
  count_in name (dropna (names_col (filter (fun e => status_eqb (e_status e) st) df))).

Record PersonStat := mkPersonStat {
  ps_name : string;
  ps_bezahlt : nat;
  ps_offen : nat;
  ps_gesamt : nat
}.

(** [name_stats] of [create_person_chart] (streamlit) and of
    [create_visualizations] (batch), sorted by "Gesamt" ascending. *)
Definition person_stats (df : list Entry) : list PersonStat :=
  let all_names := map fst (value_counts (names_col df)) in
  let rows := map (fun n =>
                let b := group_size Bezahlt df n in
                let o := group_size Offen df n in
                mkPersonStat n b o (b + o)) all_names in
  sort_stable (fun x y => ps_gesamt x <=? ps_gesamt y) rows.

(** The metrics of [main] (streamlit) and [create_statistics_table]
    (batch). *)
Definition bezahlt_count (df : list Entry) : nat :=
  length (filter (fun e => status_eqb (e_status e) Bezahlt) df).
Definition offen_count (df : list Entry) : nat :=
  length (filter (fun e => status_eqb (e_status e) Offen) df).
Definition personen_count (df : list Entry) : nat := nunique (names_col df).

(** ** Value counts over any column *)

Section Counts.
Context {K : Type} (keqb : K -> K -> bool).

(** Number of cells equal to [k]. *)
Definition kcount (k : K) (l : list K) : nat := length (filter (keqb k) l).

Fixpoint kuniques_aux (seen : list K) (l : list K) : list K :=
  match l with
  | [] => []
  | x :: l' =>
      if existsb (keqb x) seen then kuniques_aux seen l'
      else x :: kuniques_aux (x :: seen) l'
  end.

(** Distinct values in order of first occurrence ([Series.unique]). *)
Definition kuniques (l : list K) : list K := kuniques_aux [] l.

(** [Series.value_counts()] on a column without NaN. *)
Definition kvalue_counts (l : list K) : list (K * nat) :=
  sort_stable (fun x y => snd y <=? snd x) (map (fun k => (k, kcount k l)) (kuniques l)).

End Counts.

(** ** Statistics ([create_statistics_table], metrics of [main]) *)

(** Equality of cells as pandas compares the non-NaN values of an object
    column. *)
Definition cell_eqb (a b : Cell) : bool :=
  match a, b with
  | CStr s, CStr t => String.eqb s t
  | CNum x, CNum y => Z.eqb x y
  | CNaN, CNaN => true
  | _, _ => false
  end.

(** [df["Grund"]] without its NaN cells. *)
Definition grund_col (df : list Entry) : list Cell :=
  filter (fun c => match c with CNaN => false | _ => true end) (map e_grund df).

Record Stats := mkStats {
  st_gesamt : nat;
  st_bezahlt : nat;
  st_offen : nat;
  st_personen : nat;
  st_gruende : nat
}.

(** [create_statistics_table(df)] *)
Definition create_statistics_table (df : list Entry) : Stats :=
  mkStats (length df) (bezahlt_count df) (offen_count df) (personen_count df)
          (length (kuniques cell_eqb (grund_col df))).

(** ** Reasons chart ([create_reasons_chart], [create_visualizations]) *)

(** [df["Grund"].value_counts().head(10).sort_values(ascending=True)] *)
Definition reasons_counts (df : list Entry) : list (Cell * nat) :=
  sort_stable (fun x y => snd x <=? snd y) (firstn 10 (kvalue_counts cell_eqb (grund_col df))).

(** ** Payment chart ([create_payment_chart], [create_visualizations]) *)

(** [df["Bezahlt_Status"].value_counts()] *)
Definition status_counts (df : list Entry) : list (Status * nat) :=
  kvalue_counts status_eqb (map e_status df).

Definition GREEN : string := "#16a34a".
Definition RED : string := "#dc2626".

(** [Axes.pie(sizes, labels=..., colors=..., explode=...)], the part these
    calls exercise: matplotlib raises [ValueError] unless [explode] has one
    entry per wedge; wedge [i] gets [colors[i % len(colors)]].  The result
    pairs each wedge label with its colour. *)
Definition mpl_pie {L : Type} (sizes : list (L * nat)) (colors : list string)
    (explode : list Q) : Exc (list (L * string)) :=
  if Nat.eqb (length sizes) (length explode) then
    Ok (combine (map fst sizes)
                (map (fun i => nth (i mod length colors) colors "") (seq 0 (length sizes))))
  else Raise "ValueError: 'explode' must be of length 'x'".

(** [create_payment_chart(df)] (streamlit): colours green, red. *)
Definition streamlit_payment_chart (df : list Entry) : Exc (list (Status * string)) :=
  mpl_pie (status_counts df) [GREEN; RED] [(5 # 100)%Q; (5 # 100)%Q].

(** The pie of [create_visualizations(df)] (batch): colours red, green. *)
Definition batch_payment_chart (df : list Entry) : Exc (list (Status * string)) :=
  mpl_pie (status_counts df) [RED; GREEN] [(5 # 100)%Q; (5 # 100)%Q].

(** ** HTML report ([save_dashboard], batch [main]) *)

(** [str(n)] for a non-negative integer. *)
Definition nat_str (n : nat) : string := NilEmpty.string_of_uint (Nat.to_uint n).

(** [row["Medaille"] if row["Medaille"] else f"{row['Rang']}."] *)
Definition rank_label (r : RankRow) : string :=
  if String.eqb (medaille r) "" then (nat_str (rang r) ++ ".")%string else medaille r.

Definition nl : string := String (ascii_of_nat 10) EmptyString.
Definition dq : string := String (ascii_of_nat 34) EmptyString.
Fixpoint spaces (n : nat) : string :=
  match n with
  | O => EmptyString
  | S n' => String " " (spaces n')
  end.

(** The f-string appended for one ranking row. *)
Definition ranking_row_html (r : RankRow) : string :=
  nl ++ spaces 20 ++ "<tr>" ++
  nl ++ spaces 24 ++ "<td>" ++ rank_label r ++ "</td>" ++
  nl ++ spaces 24 ++ "<td><strong>" ++ rname r ++ "</strong></td>" ++
  nl ++ spaces 24 ++ "<td style=" ++ dq ++ "text-align: right; color: #2563eb; font-weight: bold;"
     ++ dq ++ ">" ++ nat_str (anzahl r) ++ "</td>" ++
  nl ++ spaces 20 ++ "</tr>" ++
  nl ++ spaces 8.

(** [ranking_html], built by [+=] over the rows. *)
Definition ranking_html (rows : list RankRow) : string :=
  fold_left (fun acc r => acc ++ ranking_row_html r) rows "".









(** ** Concrete sheets *)

(** The spec's example: A paid, B unpaid, and a third unpaid entry named
    [sentinel] with annotation "A, C". *)
Definition example_rows (sentinel : string) : list Row :=
  [mkRow (CStr "A") (CStr "J") CNaN None;
   mkRow (CStr "B") (CStr "") CNaN None;
   mkRow (CStr sentinel) (CStr "") CNaN (Some "A, C")].

Definition example_df (sentinel : string) : list Entry :=
  map load_row (example_rows sentinel).

(** Two unpaid shared-boxes entries spelled differently. *)
Definition two_spellings_df : list Entry :=
  map load_row [mkRow (CStr "Geteilte Kisten") CNaN CNaN (Some "A, B");
                mkRow (CStr "geteilte kisten") CNaN CNaN (Some "A, B")].





(** Eleven unpaid entries with the eleven reasons 0, ..., 10. *)
Definition eleven_reasons_df : list Entry :=
  map (fun i => load_row (mkRow (CStr "A") CNaN (CNum (Z.of_nat i)) None)) (seq 0 11).


(** * Lemmas *)

(** ** Sorting *)

Section SortFacts.
Variable A : Type.
Variable before : A -> A -> bool.

Lemma insert_sorted_perm (x : A) (l : list A) :
  Permutation (insert_sorted before x l) (x :: l).
Proof.
  induction l as [|y l IH]; simpl; [auto|].
  destruct (before x y); [auto|].
  eapply perm_trans; [apply perm_skip, IH|apply perm_swap].
Qed.

Lemma sort_stable_perm (l : list A) : Permutation (sort_stable before l) l.
Proof.
  induction l as [|x l IH]; simpl; [auto|].
  eapply perm_trans; [apply insert_sorted_perm|auto].
Qed.

(** Filtering by a predicate under which all kept elements have equal keys
    commutes with the sort: this is stability. *)
Lemma filter_insert_sorted (P : A -> bool) (x : A) (l : list A) :
  (forall y, P x = true -> P y = true -> before x y = true) ->
  filter P (insert_sorted before x l) = filter P (x :: l).
Proof.
  intros Heq. induction l as [|y l IH]; simpl; [reflexivity|].
  destruct (before x y) eqn:Hxy; [reflexivity|].
  simpl. rewrite IH. simpl.
  destruct (P x) eqn:Px, (P y) eqn:Py; try reflexivity.
  rewrite (Heq y) in Hxy by auto. discriminate.
Qed.

Lemma filter_sort_stable (P : A -> bool) (l : list A) :
  (forall x y, P x = true -> P y = true -> before x y = true) ->
  filter P (sort_stable before l) = filter P l.
Proof.
  intros Heq. induction l as [|x l IH]; simpl; [reflexivity|].
  rewrite filter_insert_sorted by auto. simpl.
  rewrite IH. reflexivity.
Qed.

Hypothesis before_total : forall x y, before x y = false -> before y x = true.

Lemma insert_sorted_sorted (x : A) (l : list A) :
  Sorted (fun a b => before a b = true) l ->
  Sorted (fun a b => before a b = true) (insert_sorted before x l).
Proof.
  induction 1 as [|y l Hs IH Hhd]; simpl.
  - auto.
  - destruct (before x y) eqn:Hxy.
    + constructor; [constructor; auto|constructor; auto].
    + constructor; [exact IH|].
      destruct l as [|z l]; simpl.
      * constructor. apply before_total; auto.
      * inversion Hhd; subst.
        destruct (before x z); constructor; auto.
Qed.

Lemma sort_stable_sorted (l : list A) :
  Sorted (fun a b => before a b = true) (sort_stable before l).
Proof.
  induction l as [|x l IH]; simpl; [constructor|].
  apply insert_sorted_sorted; exact IH.
Qed.

End SortFacts.

(** ** Distinct names and counts *)

Lemma uniques_aux_In (x : string) (l seen : list string) :
  In x (uniques_aux seen l) <-> In x l /\ ~ In x seen.
Proof.
  revert seen. induction l as [|y l IH]; intros seen; simpl; [tauto|].
  destruct (existsb (String.eqb y) seen) eqn:Hy.
  - rewrite IH. apply existsb_exists in Hy as [z [Hz Hyz]].
    apply String.eqb_eq in Hyz; subst z.
    split; [tauto|]. intros [[<-|H] Hn]; [contradiction|auto].
  - simpl. rewrite IH. simpl.
    assert (~ In y seen) as Hny.
    { intros Hin. assert (existsb (String.eqb y) seen = true) as Ht
        by (apply existsb_exists; exists y; split; [auto|apply String.eqb_refl]).
      congruence. }
    split.
    + intros [<-|[H1 H2]]; [tauto|]. split; [auto|]. tauto.
    + intros [[<-|H1] H2]; [auto|].
      destruct (String.eqb_spec y x) as [->|Hne]; [auto|].
      right. split; [auto|]. intros [<-|H]; [apply Hne; auto|tauto].
Qed.

Lemma uniques_aux_NoDup (l seen : list string) : NoDup (uniques_aux seen l).
Proof.
  revert seen. induction l as [|y l IH]; intros seen; simpl; [constructor|].
  destruct (existsb (String.eqb y) seen); [apply IH|].
  constructor; [|apply IH].
  rewrite uniques_aux_In. simpl. tauto.
Qed.

Lemma In_uniques (x : string) (l : list string) : In x (uniques l) <-> In x l.
Proof. unfold uniques. rewrite uniques_aux_In. simpl. tauto. Qed.

Lemma In_dropna (s : string) (col : list (option string)) :
  In s (dropna col) <-> In (Some s) col.
Proof.
  induction col as [|[t|] col IH]; simpl; [tauto| |].
  - rewrite IH. split; intros [H|H]; try (left; congruence); auto.
  - rewrite IH. split; [auto|]. intros [H|H]; [discriminate|auto].
Qed.

Lemma filter_none {A} (f : A -> bool) (l : list A) :
  (forall y, In y l -> f y = false) -> filter f l = [].
Proof.
  induction l as [|y l IH]; simpl; intros H; [reflexivity|].
  rewrite (H y (or_introl eq_refl)). apply IH. auto.
Qed.

Lemma count_in_NoDup (x : string) (l : list string) :
  NoDup l -> In x l -> count_in x l = 1.
Proof.
  unfold count_in. induction 1 as [|y l Hy Hnd IH]; simpl; [contradiction|].
  intros [<-|Hin].
  - rewrite String.eqb_refl. simpl. f_equal.
    rewrite filter_none; [reflexivity|].
    intros z Hz. apply String.eqb_neq. intros <-. contradiction.
  - destruct (String.eqb_spec x y) as [->|]; [contradiction|]. auto.
Qed.

Lemma count_in_perm (x : string) (l l' : list string) :
  Permutation l l' -> count_in x l = count_in x l'.
Proof.
  unfold count_in. induction 1; simpl.
  - reflexivity.
  - destruct (String.eqb x x0); simpl; auto.
  - destruct (String.eqb x x0), (String.eqb x y); reflexivity.
  - congruence.
Qed.

(** ** Ranking *)

Lemma number_from_proj (k : nat) (l : list (string * nat)) :
  map (fun x => (rname x, anzahl x)) (number_from k l) = l.
Proof.
  revert k. induction l as [|[n c] l IH]; intros k; simpl; [reflexivity|].
  rewrite IH. reflexivity.
Qed.

Lemma number_from_rang (k : nat) (l : list (string * nat)) :
  map rang (number_from k l) = seq k (length l).
Proof.
  revert k. induction l as [|[n c] l IH]; intros k; simpl; [reflexivity|].
  rewrite IH. reflexivity.
Qed.

Lemma number_from_medal (k : nat) (l : list (string * nat)) :
  Forall (fun x => medaille x = medal (rang x)) (number_from k l).
Proof.
  revert k. induction l as [|[n c] l IH]; intros k; simpl; constructor; auto.
Qed.

Lemma number_from_sorted (k : nat) (l : list (string * nat)) :
  Sorted (fun a b => (snd b <=? snd a) = true) l ->
  Sorted (fun x y => anzahl y <= anzahl x) (number_from k l).
Proof.
  revert k. induction l as [|[n c] l IH]; intros k H; simpl; [constructor|].
  apply Sorted_inv in H as [H1 H2]. constructor; [apply IH; exact H1|].
  destruct l as [|[n' c'] l]; simpl; constructor.
  apply HdRel_inv in H2. simpl in H2. apply Nat.leb_le. exact H2.
Qed.

Lemma number_from_filter (k j : nat) (l : list (string * nat)) :
  map rname (filter (fun x => anzahl x =? k) (number_from j l))
  = map fst (filter (fun p => snd p =? k) l).
Proof.
  revert j. induction l as [|[n c] l IH]; intros j; simpl; [reflexivity|].
  destruct (c =? k); simpl; rewrite IH; reflexivity.
Qed.

Lemma filter_pairs (f : string -> nat) (k : nat) (u : list string) :
  map fst (filter (fun p => snd p =? k) (map (fun n => (n, f n)) u))
  = filter (fun n => f n =? k) u.
Proof.
  induction u as [|n u IH]; simpl; [reflexivity|].
  destruct (f n =? k); simpl; rewrite IH; reflexivity.
Qed.

Lemma value_counts_perm (col : list (option string)) :
  Permutation (value_counts col)
    (map (fun n => (n, count_in n (dropna col))) (uniques (dropna col))).
Proof. apply sort_stable_perm. Qed.

Lemma ranking_names_perm (df : list Entry) :
  Permutation (map rname (create_ranking_table df)) (uniques (dropna (names_col df))).
Proof.
  unfold create_ranking_table.
  replace (map rname (number_from 1 (value_counts (names_col df))))
    with (map fst (map (fun x => (rname x, anzahl x))
                       (number_from 1 (value_counts (names_col df)))))
    by (rewrite map_map; reflexivity).
  rewrite number_from_proj.
  eapply perm_trans; [apply Permutation_map, value_counts_perm|].
  rewrite map_map. simpl. rewrite map_id. apply Permutation_refl.
Qed.

Lemma ranking_counts (df : list Entry) :
  Forall (fun x => anzahl x = count_in (rname x) (dropna (names_col df)))
    (create_ranking_table df).
Proof.
  apply Forall_forall. intros x Hx.
  assert (In (rname x, anzahl x) (value_counts (names_col df))) as Hin.
  { unfold create_ranking_table in Hx.
    rewrite <- (number_from_proj 1 (value_counts (names_col df))).
    apply (in_map (fun x => (rname x, anzahl x))). exact Hx. }
  eapply Permutation_in in Hin; [|apply value_counts_perm].
  apply in_map_iff in Hin as [n [Heq _]]. injection Heq as -> <-. reflexivity.
Qed.

(** [uniques] keeps names in order of first occurrence: appending a name
    appends it to the distinct names exactly when it is new. *)
Lemma uniques_aux_snoc (seen l : list string) (x : string) :
  uniques_aux seen (l ++ [x])
  = (uniques_aux seen l ++ (if existsb (String.eqb x) (seen ++ l) then [] else [x]))%list.
Proof.
  revert seen. induction l as [|y l IH]; intros seen; simpl.
  - rewrite app_nil_r. destruct (existsb (String.eqb x) seen); reflexivity.
  - destruct (existsb (String.eqb y) seen) eqn:Hy.
    + rewrite IH. f_equal. rewrite !existsb_app. simpl.
      destruct (String.eqb_spec x y) as [->|]; [rewrite Hy; reflexivity|].
      reflexivity.
    + simpl. rewrite IH. f_equal. f_equal. simpl. rewrite !existsb_app. simpl.
      destruct (String.eqb x y), (existsb (String.eqb x) seen),
               (existsb (String.eqb x) l); reflexivity.
Qed.

Lemma uniques_snoc (l : list string) (x : string) :
  uniques (l ++ [x]) = (uniques l ++ (if existsb (String.eqb x) l then [] else [x]))%list.
Proof. apply uniques_aux_snoc. Qed.

Lemma length_number_from (k : nat) (l : list (string * nat)) :
  length (number_from k l) = length l.
Proof.
  revert k. induction l as [|[n c] l IH]; intros k; simpl; [reflexivity|].
  rewrite IH. reflexivity.
Qed.

Lemma medal_other (n : nat) : 3 < n -> medal n = "".
Proof. intros H. destruct n as [|[|[|[|n]]]]; try lia; reflexivity. Qed.

(** C5: the ranking table lists every distinct person once with their
    number of entries, in non-increasing order of that count; persons with
    equal counts keep their order of first occurrence in the input
    ([uniques], characterised by [uniques_snoc]); the ranks are 1..n in
    listed order; ranks 1, 2, 3 carry three distinct non-empty medals and
    every other rank carries none. *)
Theorem ranking_table_spec (df : list Entry) :
  let r := create_ranking_table df in
  let ns := dropna (names_col df) in
  Permutation (map rname r) (uniques ns) /\
  Forall (fun x => anzahl x = count_in (rname x) ns) r /\
  Sorted (fun x y => anzahl y <= anzahl x) r /\
  (forall l x, uniques (l ++ [x])
               = (uniques l ++ (if existsb (String.eqb x) l then [] else [x]))%list) /\
  (forall k, map rname (filter (fun x => anzahl x =? k) r)
             = filter (fun n => count_in n ns =? k) (uniques ns)) /\
  map rang r = seq 1 (length r) /\
  Forall (fun x => medaille x = medal (rang x)) r /\
  medal 1 <> "" /\ medal 2 <> "" /\ medal 3 <> "" /\
  medal 1 <> medal 2 /\ medal 1 <> medal 3 /\ medal 2 <> medal 3 /\
  Forall (fun x => 3 < rang x -> medaille x = "") r.
Proof.
  cbv zeta.
  split; [apply ranking_names_perm|].
  split; [apply ranking_counts|].
  split.
  { unfold create_ranking_table. apply number_from_sorted.
    apply sort_stable_sorted. intros x y H.
    apply Nat.leb_gt in H. apply Nat.leb_le. lia. }
  split; [apply uniques_snoc|].
  split.
  { intros k. unfold create_ranking_table. rewrite number_from_filter.
    unfold value_counts. rewrite filter_sort_stable.
    - apply filter_pairs.
    - intros x y Hx Hy. apply Nat.eqb_eq in Hx, Hy. apply Nat.leb_le. lia. }
  split; [unfold create_ranking_table; rewrite number_from_rang, length_number_from; reflexivity|].
  split; [apply number_from_medal|].
  repeat split; try discriminate.
  apply Forall_forall. intros x Hx H3.
  pose proof (number_from_medal 1 (value_counts (names_col df))) as Hm.
  rewrite Forall_forall in Hm. rewrite (Hm x Hx). apply medal_other. exact H3.
Qed.

(** ** Person chart *)

Lemma group_size_sum (df : list Entry) (n : string) :
  group_size Bezahlt df n + group_size Offen df n = count_in n (dropna (names_col df)).
Proof.
  unfold group_size, count_in.
  induction df as [|e df IH]; simpl; [reflexivity|].
  destruct e as [nm b g a st]; simpl.
  destruct st, nm as [s|]; simpl.
  all: try destruct (String.eqb n s); simpl.
  all: lia.
Qed.

Lemma person_stats_In (df : list Entry) (ps : PersonStat) :
  In ps (person_stats df) ->
  exists n, In n (uniques (dropna (names_col df))) /\
    ps = mkPersonStat n (group_size Bezahlt df n) (group_size Offen df n)
           (group_size Bezahlt df n + group_size Offen df n).
Proof.
  unfold person_stats. intros H.
  eapply Permutation_in in H; [|apply sort_stable_perm].
  apply in_map_iff in H as [n [<- Hn]]. exists n. split; [|reflexivity].
  apply in_map_iff in Hn as [[n' c] [Heq Hin]]. simpl in Heq; subst n'.
  eapply Permutation_in in Hin; [|apply value_counts_perm].
  apply in_map_iff in Hin as [m [Heq Hm]]. injection Heq as -> _. exact Hm.
Qed.

(** C6: for every person of the per-person chart, paid entries plus unpaid
    entries (whole-entry classification) equal the person's number of
    entries, and "Gesamt" is "Bezahlt" + "Offen"; every person appearing in
    the Name column has a row in the chart. *)
Theorem person_stats_total (df : list Entry) :
  (forall ps, In ps (person_stats df) ->
     ps_bezahlt ps + ps_offen ps = count_in (ps_name ps) (dropna (names_col df)) /\
     ps_gesamt ps = ps_bezahlt ps + ps_offen ps) /\
  (forall n, In (Some n) (names_col df) ->
     exists ps, In ps (person_stats df) /\ ps_name ps = n).
Proof.
  split.
  - intros ps H. apply person_stats_In in H as [n [_ ->]]. simpl.
    split; [apply group_size_sum|reflexivity].
  - intros n Hn. unfold person_stats.
    exists (mkPersonStat n (group_size Bezahlt df n) (group_size Offen df n)
              (group_size Bezahlt df n + group_size Offen df n)).
    split; [|reflexivity].
    eapply Permutation_in; [apply Permutation_sym, sort_stable_perm|].
    apply (in_map (fun n => mkPersonStat n (group_size Bezahlt df n) (group_size Offen df n)
              (group_size Bezahlt df n + group_size Offen df n))).
    assert (In (n, count_in n (dropna (names_col df))) (value_counts (names_col df))) as Hv.
    { eapply Permutation_in; [apply Permutation_sym, value_counts_perm|].
      apply (in_map (fun n => (n, count_in n (dropna (names_col df))))).
      apply In_uniques, In_dropna. exact Hn. }
    apply (in_map fst) in Hv. exact Hv.
Qed.

(** ** Distinct persons *)

(** C9 (amended): the ranking and the distinct-person count look at the
    Name column only, as it is: every name occurring there (in particular
    any spelling of the shared-boxes sentinel) is one distinct person, has
    exactly one ranking row, whose count is the number of entries with
    exactly that name, and annotations play no part. *)
Theorem sentinel_ordinary_person (df : list Entry) (s : string) :
  In (Some s) (names_col df) ->
  count_in s (uniques (dropna (names_col df))) = 1 /\
  length (filter (fun x => String.eqb s (rname x)) (create_ranking_table df)) = 1 /\
  Forall (fun x => rname x = s -> anzahl x = count_in s (dropna (names_col df)))
    (create_ranking_table df) /\
  (forall df', names_col df' = names_col df ->
     create_ranking_table df' = create_ranking_table df /\
     personen_count df' = personen_count df).
Proof.
  intros Hs.
  assert (count_in s (uniques (dropna (names_col df))) = 1) as H1.
  { apply count_in_NoDup; [apply uniques_aux_NoDup|].
    apply In_uniques, In_dropna. exact Hs. }
  split; [exact H1|].
  split.
  { rewrite <- H1.
    rewrite <- (count_in_perm s _ _ (ranking_names_perm df)). unfold count_in.
    induction (create_ranking_table df) as [|x r IH]; simpl; [reflexivity|].
    destruct (String.eqb s (rname x)); simpl; rewrite IH; reflexivity. }
  split.
  { pose proof (ranking_counts df) as Hc. rewrite Forall_forall in Hc |- *.
    intros x Hx <-. apply Hc. exact Hx. }
  intros df' Heq. unfold create_ranking_table, personen_count. rewrite Heq. auto.
Qed.

(** C9 counterexample: two spellings of the shared-boxes sentinel (both
    recognised as the sentinel by the open-boxes table) are two distinct
    persons and two ranking rows, not one. *)
Lemma sentinel_two_spellings_counterexample :
  Forall (fun e => is_sentinel (Py.strip (Py.str (e_name e))) = true) two_spellings_df /\
  personen_count two_spellings_df = 2 /\
  length (create_ranking_table two_spellings_df) = 2.
Proof. vm_compute. repeat constructor. Qed.

Lemma sentinel_ordinary_person_witness :
  In (Some "Geteilte Kisten") (names_col two_spellings_df) /\
  count_in "Geteilte Kisten" (uniques (dropna (names_col two_spellings_df))) = 1.
Proof.
  assert (In (Some "Geteilte Kisten") (names_col two_spellings_df)) as H
    by (vm_compute; left; reflexivity).
  split; [exact H|].
  exact (proj1 (sentinel_ordinary_person two_spellings_df "Geteilte Kisten" H)).
Defined.

(** ** Loading *)



(** ** The spec's example *)

(** C4 counterexample: the code's sentinel is "geteilte kisten"; an entry
    literally named "shared boxes" is an ordinary person, so A and C get no
    share and "shared boxes" gets a full unpaid box. *)
Lemma example_shared_boxes_counterexample :
  create_open_boxes_table (example_df "shared boxes") = [("B", 1%Q); ("shared boxes", 1%Q)] /\
  (dict_get (create_open_boxes_table (example_df "shared boxes")) "A" == 0)%Q /\
  (dict_get (create_open_boxes_table (example_df "shared boxes")) "C" == 0)%Q.
Proof. vm_compute. repeat split; reflexivity. Qed.

(** C4 (amended): with the entry named by the code's sentinel
    ("Geteilte Kisten"), A has one paid box and 0.5 open, B one open box,
    C 0.5 open. *)
Theorem example_geteilte_kisten :
  let df := example_df "Geteilte Kisten" in
  let t := create_open_boxes_table df in
  group_size Bezahlt df "A" = 1 /\ group_size Offen df "A" = 0 /\
  (dict_get t "A" == 1 # 2)%Q /\
  group_size Offen df "B" = 1 /\ (dict_get t "B" == 1)%Q /\
  (dict_get t "C" == 1 # 2)%Q /\
  t = [("B", 1%Q); ("A", (1 # 2)%Q); ("C", (1 # 2)%Q)].
Proof. vm_compute. repeat split; reflexivity. Qed.

(** ** [str.strip()] *)

Module StripFacts.
Import Py.








End StripFacts.


(** ** The dict [name_counts] *)

Open Scope Q_scope.


Lemma dict_get_set (d : Dict) (k p : string) (v : Q) :
  dict_get (dict_set d k v) p = if String.eqb k p then v else dict_get d p.
Proof.
  induction d as [|[k' v'] d IH]; simpl.
  - destruct (String.eqb k p); reflexivity.
  - destruct (String.eqb_spec k' k) as [->|Hne]; simpl.
    + destruct (String.eqb k p); reflexivity.
    + rewrite IH. destruct (String.eqb_spec k' p) as [->|]; [|reflexivity].
      destruct (String.eqb_spec k p) as [->|]; [contradiction|reflexivity].
Qed.

Lemma dict_get_add (d : Dict) (k p : string) (v : Q) :
  dict_get (dict_add d k v) p == dict_get d p + (if String.eqb k p then v else 0).
Proof.
  unfold dict_add. rewrite dict_get_set.
  destruct (String.eqb_spec k p) as [->|]; [reflexivity|].
  rewrite Qplus_0_r. reflexivity.
Qed.





Lemma inject_succ (m : nat) :
  inject_Z (Z.of_nat (S m)) == inject_Z (Z.of_nat m) + 1.
Proof. rewrite Nat2Z.inj_succ, <- Z.add_1_r, inject_Z_plus. reflexivity. Qed.

(** The inner [for shared_name in shared_names] loop. *)
Lemma dict_get_fold_add (ns : list string) (f : Q) (d : Dict) (p : string) :
  dict_get (fold_left (fun d n => dict_add d n f) ns d) p
  == dict_get d p + inject_Z (Z.of_nat (count_in p ns)) * f.
Proof.
  revert d. unfold count_in.
  induction ns as [|n ns IH]; intros d; cbn [fold_left filter length].
  - cbn. ring.
  - rewrite IH, dict_get_add. rewrite String.eqb_sym.
    destruct (String.eqb p n); cbn [length]; [|ring].
    rewrite inject_succ. ring.
Qed.


(** ** The open-boxes loop *)








(** ** Where the names of the open-boxes table come from *)






(** ** Blank annotations *)



Lemma string_app_nil_r (s : string) : (s ++ "")%string = s.
Proof. induction s as [|c s IH]; simpl; [reflexivity|rewrite IH; reflexivity]. Qed.

Lemma string_app_assoc (a b c : string) : ((a ++ b) ++ c)%string = (a ++ (b ++ c))%string.
Proof. induction a as [|x a IH]; simpl; [reflexivity|rewrite IH; reflexivity]. Qed.





(** ** Invariants of the open-boxes table *)

Lemma open_step_credit (d : Dict) (row : Entry) (p : string) :
  dict_get (open_step d row) p == dict_get d p + row_credit row p.
Proof.
  unfold row_credit, open_step.
  destruct (is_sentinel (Py.strip (Py.str (e_name row)))).
  - unfold apportion.
    destruct (negb (String.eqb (anmerkung_str (e_anmerkung row)) "") &&
              negb (String.eqb (anmerkung_str (e_anmerkung row)) "nan")).
    + rewrite !dict_get_fold_add. simpl. ring.
    + simpl. ring.
  - rewrite !dict_get_add. simpl. ring.
Qed.

Lemma open_fold_credit (rows : list Entry) (d : Dict) (p : string) :
  dict_get (fold_left open_step rows d) p == dict_get d p + credits_sum rows p.
Proof.
  revert d. induction rows as [|row rows IH]; intros d; simpl.
  - ring.
  - rewrite IH, open_step_credit. ring.
Qed.









(** * Further properties of the code *)

(** ** Facts on value counts *)

Open Scope nat_scope.

Section CountFacts.
Context {K : Type} (keqb : K -> K -> bool).
Hypothesis keqb_spec : forall x y, reflect (x = y) (keqb x y).

Lemma keqb_refl (x : K) : keqb x x = true.
Proof. destruct (keqb_spec x x); congruence. Qed.

Lemma kuniques_aux_In (x : K) (l seen : list K) :
  In x (kuniques_aux keqb seen l) <-> In x l /\ ~ In x seen.
Proof.
  revert seen. induction l as [|y l IH]; intros seen; simpl; [tauto|].
  destruct (existsb (keqb y) seen) eqn:Hy.
  - rewrite IH. apply existsb_exists in Hy as [z [Hz Hyz]].
    destruct (keqb_spec y z) as [<-|]; [|discriminate].
    split; [tauto|]. intros [[<-|H] Hn]; [contradiction|auto].
  - simpl. rewrite IH. simpl.
    assert (~ In y seen) as Hny.
    { intros Hin. assert (existsb (keqb y) seen = true) as Ht
        by (apply existsb_exists; exists y; split; [auto|apply keqb_refl]).
      congruence. }
    split.
    + intros [<-|[H1 H2]]; [tauto|]. split; [auto|]. tauto.
    + intros [[<-|H1] H2]; [auto|].
      destruct (keqb_spec y x) as [->|Hne]; [auto|].
      right. split; [auto|]. intros [<-|H]; [apply Hne; auto|tauto].
Qed.

Lemma kuniques_NoDup (l : list K) : NoDup (kuniques keqb l).
Proof.
  unfold kuniques. generalize (@nil K) as seen.
  induction l as [|y l IH]; intros seen; simpl; [constructor|].
  destruct (existsb (keqb y) seen); [apply IH|].
  constructor; [|apply IH].
  rewrite kuniques_aux_In. simpl. tauto.
Qed.

Lemma kuniques_In (x : K) (l : list K) : In x (kuniques keqb l) <-> In x l.
Proof. unfold kuniques. rewrite kuniques_aux_In. simpl. tauto. Qed.

Lemma kcount_hits (x : K) (u : list K) :
  NoDup u -> In x u -> length (filter (fun k => keqb k x) u) = 1.
Proof.
  induction 1 as [|y u Hy Hnd IH]; simpl; [contradiction|].
  intros [->|Hin].
  - rewrite keqb_refl. simpl. f_equal.
    rewrite filter_none; [reflexivity|].
    intros z Hz. destruct (keqb_spec z x) as [->|]; [contradiction|reflexivity].
  - destruct (keqb_spec y x) as [->|]; [contradiction|]. auto.
Qed.

Lemma sum_kcount_aux (x : K) (l u : list K) :
  list_sum (map (fun k => kcount keqb k (x :: l)) u)
  = length (filter (fun k => keqb k x) u) + list_sum (map (fun k => kcount keqb k l) u).
Proof.
  induction u as [|k u IH]; simpl; [reflexivity|].
  rewrite IH. unfold kcount. simpl.
  destruct (keqb k x); simpl; lia.
Qed.

(** The counts of the distinct values add up to the length of the column. *)
Lemma sum_kcount (l u : list K) :
  NoDup u -> incl l u -> list_sum (map (fun k => kcount keqb k l) u) = length l.
Proof.
  intros Hnd. induction l as [|x l IH]; intros Hincl; simpl.
  - induction u as [|k u IHu]; simpl; [reflexivity|].
    inversion Hnd; subst. rewrite IHu; auto. intros ? [].
  - rewrite sum_kcount_aux, kcount_hits; auto.
    + rewrite IH; [reflexivity|]. intros z Hz. apply Hincl. right. exact Hz.
    + apply Hincl. left. reflexivity.
Qed.

Lemma kvalue_counts_perm (l : list K) :
  Permutation (kvalue_counts keqb l) (map (fun k => (k, kcount keqb k l)) (kuniques keqb l)).
Proof. apply sort_stable_perm. Qed.

Lemma list_sum_perm (a b : list nat) : Permutation a b -> list_sum a = list_sum b.
Proof. induction 1; simpl; lia. Qed.

Lemma kvalue_counts_sum (l : list K) :
  list_sum (map snd (kvalue_counts keqb l)) = length l.
Proof.
  rewrite (list_sum_perm _ _ (Permutation_map snd (kvalue_counts_perm l))).
  rewrite map_map. simpl. apply sum_kcount; [apply kuniques_NoDup|].
  intros z Hz. apply kuniques_In. exact Hz.
Qed.

Lemma kvalue_counts_keys (l : list K) :
  Permutation (map fst (kvalue_counts keqb l)) (kuniques keqb l).
Proof.
  eapply perm_trans; [apply Permutation_map, kvalue_counts_perm|].
  rewrite map_map. simpl. rewrite map_id. apply Permutation_refl.
Qed.

Lemma kvalue_counts_In (l : list K) (p : K * nat) :
  In p (kvalue_counts keqb l) -> In (fst p) l /\ snd p = kcount keqb (fst p) l.
Proof.
  intros H. eapply Permutation_in in H; [|apply kvalue_counts_perm].
  apply in_map_iff in H as [k [<- Hk]]. simpl.
  split; [apply kuniques_In; exact Hk|reflexivity].
Qed.

Lemma kvalue_counts_sorted (l : list K) :
  Sorted (fun a b => (snd b <=? snd a) = true) (kvalue_counts keqb l).
Proof.
  apply sort_stable_sorted. intros x y H.
  apply Nat.leb_gt in H. apply Nat.leb_le. lia.
Qed.

End CountFacts.

Lemma value_counts_as_k (col : list (option string)) :
  value_counts col = kvalue_counts String.eqb (dropna col).
Proof. reflexivity. Qed.

Lemma uniques_as_k (l : list string) : uniques l = kuniques String.eqb l.
Proof. reflexivity. Qed.

Lemma status_eqb_spec (a b : Status) : reflect (a = b) (status_eqb a b).
Proof. destruct a, b; constructor; congruence. Qed.

Lemma cell_eqb_spec (a b : Cell) : reflect (a = b) (cell_eqb a b).
Proof.
  destruct a as [s|x|], b as [t|y|]; simpl; try (constructor; congruence).
  - destruct (String.eqb_spec s t); constructor; congruence.
  - destruct (Z.eqb_spec x y); constructor; congruence.
Qed.

Lemma Sorted_weaken {A} (R R' : A -> A -> Prop) (l : list A) :
  (forall x y, R x y -> R' x y) -> Sorted R l -> Sorted R' l.
Proof.
  intros HR. induction 1 as [|x l Hs IH Hd]; constructor; [exact IH|].
  destruct Hd; constructor. apply HR. assumption.
Qed.

Lemma filter_length_le {A} (f : A -> bool) (l : list A) : length (filter f l) <= length l.
Proof. induction l as [|x l IH]; simpl; [lia|]. destruct (f x); simpl; lia. Qed.

Lemma dropna_length (col : list (option string)) : length (dropna col) <= length col.
Proof. induction col as [|[s|] col IH]; simpl; lia. Qed.

Lemma status_counts_total (df : list Entry) :
  bezahlt_count df + offen_count df = length df.
Proof.
  unfold bezahlt_count, offen_count.
  induction df as [|e df IH]; simpl; [reflexivity|].
  destruct (e_status e); simpl; lia.
Qed.

Lemma personen_le (df : list Entry) : personen_count df <= length (dropna (names_col df)).
Proof.
  unfold personen_count, nunique. apply NoDup_incl_length; [apply uniques_aux_NoDup|].
  intros x Hx. apply In_uniques. exact Hx.
Qed.

Lemma map_anzahl_number_from (k : nat) (l : list (string * nat)) :
  map anzahl (number_from k l) = map snd l.
Proof.
  rewrite <- (number_from_proj k l) at 2. rewrite map_map. reflexivity.
Qed.

Lemma person_stats_pairs (df : list Entry) :
  let ns := dropna (names_col df) in
  Permutation (map (fun ps => (ps_name ps, ps_gesamt ps)) (person_stats df))
              (map (fun n => (n, count_in n ns)) (uniques ns)).
Proof.
  intros ns. unfold person_stats. cbv zeta.
  eapply perm_trans; [apply Permutation_map, sort_stable_perm|].
  rewrite map_map. simpl.
  rewrite (map_ext _ (fun n => (n, count_in n ns))) by (intros n; rewrite group_size_sum; reflexivity).
  apply Permutation_map. rewrite value_counts_as_k.
  apply (kvalue_counts_keys String.eqb).
Qed.

(** X1: the statistics table is consistent: every entry is either paid
    or open, and neither the number of persons nor the number of reasons
    exceeds the number of entries. *)
Theorem statistics_consistent (df : list Entry) :
  let s := create_statistics_table df in
  st_bezahlt s + st_offen s = st_gesamt s /\
  st_personen s <= st_gesamt s /\
  st_gruende s <= st_gesamt s.
Proof.
  simpl. split; [apply status_counts_total|]. split.
  - eapply Nat.le_trans; [apply personen_le|].
    eapply Nat.le_trans; [apply dropna_length|]. unfold names_col. rewrite length_map. lia.
  - eapply Nat.le_trans.
    + apply (NoDup_incl_length (l' := grund_col df)); [apply (kuniques_NoDup cell_eqb cell_eqb_spec)|].
      intros x Hx. apply (kuniques_In cell_eqb cell_eqb_spec). exact Hx.
    + unfold grund_col. eapply Nat.le_trans; [apply filter_length_le|].
      rewrite length_map. lia.
Qed.

(** X2: the ranking has one row per person, and its counts add up to the
    number of entries that carry a name. *)
Theorem ranking_totals (df : list Entry) :
  length (create_ranking_table df) = personen_count df /\
  list_sum (map anzahl (create_ranking_table df)) = length (dropna (names_col df)).
Proof.
  unfold create_ranking_table. split.
  - rewrite length_number_from, (Permutation_length (value_counts_perm _)), length_map.
    reflexivity.
  - rewrite map_anzahl_number_from, value_counts_as_k.
    apply (kvalue_counts_sum String.eqb String.eqb_spec).
Qed.

(** X3: the person chart has one bar per person, sorted by the total
    ascending, and the totals add up to the number of named entries. *)
Theorem person_chart_shape (df : list Entry) :
  let ps := person_stats df in
  Sorted (fun x y => ps_gesamt x <= ps_gesamt y) ps /\
  NoDup (map ps_name ps) /\
  length ps = personen_count df /\
  list_sum (map ps_gesamt ps) = length (dropna (names_col df)).
Proof.
  cbv zeta. pose proof (person_stats_pairs df) as Hp. cbv zeta in Hp.
  pose proof (Permutation_map fst Hp) as Hn. pose proof (Permutation_map snd Hp) as Hs.
  rewrite !map_map in Hn, Hs. simpl in Hn, Hs. rewrite map_id in Hn.
  split; [|split; [|split]].
  - eapply Sorted_weaken; [|apply sort_stable_sorted].
    + intros x y H. apply Nat.leb_le. exact H.
    + intros x y H. apply Nat.leb_gt in H. apply Nat.leb_le. lia.
  - eapply Permutation_NoDup; [symmetry; exact Hn|apply uniques_aux_NoDup].
  - pose proof (Permutation_length Hn) as Hl. rewrite length_map in Hl. exact Hl.
  - etransitivity; [exact (list_sum_perm _ _ Hs)|]. rewrite uniques_as_k.
    apply (sum_kcount String.eqb String.eqb_spec); [apply kuniques_NoDup, String.eqb_spec|].
    intros x Hx. apply kuniques_In; [apply String.eqb_spec|exact Hx].
Qed.


(** ** The tally of open boxes *)

Open Scope Q_scope.



Lemma dict_get_nonneg (d : Dict) (k : string) :
  Forall (fun p => 0 < snd p) d -> 0 <= dict_get d k.
Proof.
  induction 1 as [|[k' v] d Hv Hd IH]; simpl; [apply Qle_refl|].
  destruct (String.eqb k' k); [apply Qlt_le_weak; exact Hv|exact IH].
Qed.

Lemma dict_set_pos (d : Dict) (k : string) (v : Q) :
  0 < v -> Forall (fun p => 0 < snd p) d -> Forall (fun p => 0 < snd p) (dict_set d k v).
Proof.
  intros Hv. induction 1 as [|[k' v'] d Hv' Hd IH]; simpl; [constructor; auto|].
  destruct (String.eqb k' k); constructor; auto.
Qed.

Lemma dict_add_pos (d : Dict) (k : string) (v : Q) :
  0 < v -> Forall (fun p => 0 < snd p) d -> Forall (fun p => 0 < snd p) (dict_add d k v).
Proof.
  intros Hv Hd. apply dict_set_pos; [|exact Hd].
  apply (Qle_lt_trans _ (dict_get d k + 0)); [rewrite Qplus_0_r; apply dict_get_nonneg; exact Hd|].
  apply Qplus_lt_r. exact Hv.
Qed.

Lemma open_step_pos (d : Dict) (e : Entry) :
  Forall (fun p => 0 < snd p) d -> Forall (fun p => 0 < snd p) (open_step d e).
Proof.
  intros Hd. unfold open_step, apportion.
  destruct (is_sentinel (Py.strip (Py.str (e_name e)))); [|apply dict_add_pos; [reflexivity|exact Hd]].
  destruct (_ && _); [|exact Hd]. cbv zeta.
  destruct (shared_names (anmerkung_str (e_anmerkung e))) as [|n ns]; [exact Hd|].
  assert (0 < shared_fraction (n :: ns)) as Hf.
  { unfold shared_fraction. apply Qlt_shift_div_l.
    - unfold Qlt. simpl. lia.
    - rewrite Qmult_0_l. reflexivity. }
  revert Hf. generalize (shared_fraction (n :: ns)) as f. intros f Hf.
  generalize (n :: ns) as l. intros l. revert d Hd.
  induction l as [|m l IH]; intros d Hd; simpl; [exact Hd|].
  apply IH. apply dict_add_pos; assumption.
Qed.






Lemma open_name_counts_credit (df : list Entry) (p : string) :
  dict_get (open_name_counts df) p == credits_sum (open_rows df) p.
Proof.
  unfold open_name_counts. rewrite open_fold_credit. simpl. ring.
Qed.




Close Scope Q_scope.

(** ** Reasons chart *)

Lemma strongly_sorted_app {A} (R : A -> A -> Prop) (a b : list A) (x y : A) :
  StronglySorted R (a ++ b) -> In x a -> In y b -> R x y.
Proof.
  induction a as [|z a IH]; simpl; [contradiction|].
  intros H [<-|Hx] Hy; apply StronglySorted_inv in H as [H1 H2].
  - rewrite Forall_forall in H2. apply H2, in_or_app. right. exact Hy.
  - apply IH; assumption.
Qed.

Lemma reasons_counts_perm (df : list Entry) :
  Permutation (reasons_counts df) (firstn 10 (kvalue_counts cell_eqb (grund_col df))).
Proof. apply sort_stable_perm. Qed.

Lemma In_firstn_app {A} (n : nat) (l : list A) (x : A) : In x (firstn n l) -> In x l.
Proof.
  intros H. rewrite <- (firstn_skipn n l). apply in_or_app. left. exact H.
Qed.

Lemma grund_col_not_nan (df : list Entry) (g : Cell) : In g (grund_col df) -> g <> CNaN.
Proof.
  unfold grund_col. intros H. apply filter_In in H as [_ H]. destruct g; congruence.
Qed.

(** X8: the reasons chart shows at most ten distinct reasons, never NaN,
    with their counts, sorted ascending; there are ten bars, or one per
    reason when there are fewer. *)
Theorem reasons_chart_shape (df : list Entry) :
  let r := reasons_counts df in
  length r = Nat.min 10 (st_gruende (create_statistics_table df)) /\
  Sorted (fun x y => snd x <= snd y) r /\
  NoDup (map fst r) /\
  (forall g c, In (g, c) r ->
     g <> CNaN /\ In g (grund_col df) /\ c = kcount cell_eqb g (grund_col df)).
Proof.
  cbv zeta. pose proof (reasons_counts_perm df) as Hp.
  set (vc := kvalue_counts cell_eqb (grund_col df)) in *.
  split; [|split; [|split]].
  - rewrite (Permutation_length Hp), length_firstn. simpl. f_equal.
    unfold vc. rewrite (Permutation_length (kvalue_counts_perm _ _)), length_map. reflexivity.
  - eapply Sorted_weaken; [|apply sort_stable_sorted].
    + intros x y H. apply Nat.leb_le. exact H.
    + intros x y H. apply Nat.leb_gt in H. apply Nat.leb_le. lia.
  - eapply Permutation_NoDup; [symmetry; apply Permutation_map, Hp|].
    rewrite <- firstn_map. apply (NoDup_app_remove_r _ (skipn 10 (map fst vc))).
    rewrite firstn_skipn. eapply Permutation_NoDup; [symmetry; apply kvalue_counts_keys|].
    apply (kuniques_NoDup cell_eqb cell_eqb_spec).
  - intros g c H. apply (Permutation_in _ Hp), In_firstn_app in H.
    unfold vc in H.
    apply (kvalue_counts_In cell_eqb cell_eqb_spec) in H as [H1 H2]. simpl in H1, H2.
    split; [apply (grund_col_not_nan df); exact H1|]. split; assumption.
Qed.

(** X9: the reasons chart keeps the most frequent reasons: a reason left
    out occurs at most as often as any reason shown. *)
Theorem reasons_chart_top (df : list Entry) (g : Cell) :
  In g (grund_col df) -> ~ In g (map fst (reasons_counts df)) ->
  forall p, In p (reasons_counts df) -> kcount cell_eqb g (grund_col df) <= snd p.
Proof.
  intros Hg Hn p Hp. pose proof (reasons_counts_perm df) as Hperm.
  set (vc := kvalue_counts cell_eqb (grund_col df)) in *.
  assert (In g (map fst vc)) as Hgv.
  { eapply Permutation_in; [symmetry; apply kvalue_counts_keys|].
    apply (kuniques_In cell_eqb cell_eqb_spec). exact Hg. }
  apply in_map_iff in Hgv as [[g' c] [Hg' Hgc]]. simpl in Hg'. subst g'.
  pose proof (kvalue_counts_In cell_eqb cell_eqb_spec _ _ Hgc) as [_ Hc]. simpl in Hc.
  rewrite <- Hc.
  assert (In (g, c) (skipn 10 vc)) as Hs.
  { rewrite <- (firstn_skipn 10 vc) in Hgc. apply in_app_or in Hgc as [Hf|Hs]; [|exact Hs].
    exfalso. apply Hn. eapply Permutation_in; [symmetry; apply Permutation_map, Hperm|].
    apply in_map_iff. exists (g, c). split; [reflexivity|exact Hf]. }
  apply (Permutation_in _ Hperm) in Hp.
  assert (StronglySorted (fun a b => (snd b <=? snd a) = true) vc) as Hss.
  { apply Sorted_StronglySorted; [|apply kvalue_counts_sorted].
    intros x y z H1 H2. apply Nat.leb_le in H1, H2. apply Nat.leb_le. lia. }
  rewrite <- (firstn_skipn 10 vc) in Hss.
  pose proof (strongly_sorted_app _ _ _ _ _ Hss Hp Hs) as H. simpl in H.
  apply Nat.leb_le. exact H.
Qed.

Lemma reasons_chart_top_witness :
  In (CNum 10) (grund_col eleven_reasons_df) /\
  ~ In (CNum 10) (map fst (reasons_counts eleven_reasons_df)) /\
  (forall p, In p (reasons_counts eleven_reasons_df) ->
     kcount cell_eqb (CNum 10) (grund_col eleven_reasons_df) <= snd p).
Proof.
  assert (H1 : In (CNum 10) (grund_col eleven_reasons_df)) by (vm_compute; tauto).
  assert (H2 : ~ In (CNum 10) (map fst (reasons_counts eleven_reasons_df))).
  { vm_compute. intros H. repeat (destruct H as [H|H]; [discriminate|]). exact H. }
  split; [exact H1|split; [exact H2|]].
  exact (reasons_chart_top eleven_reasons_df (CNum 10) H1 H2).
Defined.

(** ** Payment chart *)

Lemma status_present (df : list Entry) (st : Status) :
  In st (map e_status df) <->
  0 < length (filter (fun e => status_eqb (e_status e) st) df).
Proof.
  induction df as [|e df IH]; simpl; [split; [contradiction|lia]|].
  destruct (status_eqb_spec (e_status e) st) as [Heq|Hne]; simpl.
  - split; [lia|auto].
  - rewrite <- IH. split; [intros [H|H]; [contradiction|exact H]|auto].
Qed.

Lemma kcount_status (df : list Entry) (st : Status) :
  kcount status_eqb st (map e_status df)
  = length (filter (fun e => status_eqb (e_status e) st) df).
Proof.
  unfold kcount. induction df as [|e df IH]; simpl; [reflexivity|].
  replace (status_eqb st (e_status e)) with (status_eqb (e_status e) st)
    by (destruct st, (e_status e); reflexivity).
  destruct (status_eqb (e_status e) st); simpl; rewrite IH; reflexivity.
Qed.

Lemma status_uniques_incl (df : list Entry) (l : list Status) :
  (forall st, In st (map e_status df) -> In st l) ->
  length (kuniques status_eqb (map e_status df)) <= length l.
Proof.
  intros H. apply NoDup_incl_length; [apply (kuniques_NoDup _ status_eqb_spec)|].
  intros st Hst. apply H. apply (kuniques_In _ status_eqb_spec). exact Hst.
Qed.

Lemma status_uniques_both (df : list Entry) :
  0 < bezahlt_count df -> 0 < offen_count df ->
  Permutation (kuniques status_eqb (map e_status df)) [Bezahlt; Offen].
Proof.
  intros Hb Ho. apply NoDup_Permutation.
  - apply (kuniques_NoDup _ status_eqb_spec).
  - constructor; [simpl; intros [H|[]]; discriminate|constructor; [intros []|constructor]].
  - intros st. rewrite (kuniques_In _ status_eqb_spec). split.
    + intros _. destruct st; simpl; auto.
    + intros _. apply status_present. destruct st; assumption.
Qed.

Lemma mpl_pie_ok {L : Type} (sizes : list (L * nat)) (colors : list string) (explode : list Q) :
  (exists m, mpl_pie sizes colors explode = Raise m) <-> length sizes <> length explode.
Proof.
  unfold mpl_pie. destruct (Nat.eqb_spec (length sizes) (length explode)).
  - split; [intros [m H]; discriminate|contradiction].
  - split; [auto|]. intros _. eexists. reflexivity.
Qed.

Lemma status_counts_length (df : list Entry) :
  length (status_counts df) = length (kuniques status_eqb (map e_status df)).
Proof.
  unfold status_counts. rewrite (Permutation_length (kvalue_counts_perm _ _)), length_map.
  reflexivity.
Qed.

Lemma status_counts_two (df : list Entry) :
  length (status_counts df) = 2 <-> 0 < bezahlt_count df /\ 0 < offen_count df.
Proof.
  rewrite status_counts_length. split.
  - intros H. split.
    + destruct (Nat.lt_ge_cases 0 (bezahlt_count df)) as [|Hb]; [assumption|exfalso].
      assert (length (kuniques status_eqb (map e_status df)) <= length [Offen]) as Hl.
      { apply status_uniques_incl. intros [|] Hst; [|left; reflexivity].
        apply status_present in Hst. unfold bezahlt_count in Hb. lia. }
      simpl in Hl. lia.
    + destruct (Nat.lt_ge_cases 0 (offen_count df)) as [|Ho]; [assumption|exfalso].
      assert (length (kuniques status_eqb (map e_status df)) <= length [Bezahlt]) as Hl.
      { apply status_uniques_incl. intros [|] Hst; [left; reflexivity|].
        apply status_present in Hst. unfold offen_count in Ho. lia. }
      simpl in Hl. lia.
  - intros [Hb Ho]. rewrite (Permutation_length (status_uniques_both df Hb Ho)). reflexivity.
Qed.

(** X10: the payment pie of both programs raises [ValueError] exactly
    when not both statuses occur (in particular on an empty sheet), and
    its slices add up to the number of entries. *)
Theorem payment_chart_raises (df : list Entry) :
  ((exists m, streamlit_payment_chart df = Raise m) <-> bezahlt_count df = 0 \/ offen_count df = 0) /\
  ((exists m, batch_payment_chart df = Raise m) <-> bezahlt_count df = 0 \/ offen_count df = 0) /\
  list_sum (map snd (status_counts df)) = length df.
Proof.
  pose proof (status_counts_two df) as H2.
  unfold streamlit_payment_chart, batch_payment_chart. rewrite !mpl_pie_ok. simpl length.
  split; [|split].
  - split; [intros Hn; lia|intros Hz Heq; apply H2 in Heq; lia].
  - split; [intros Hn; lia|intros Hz Heq; apply H2 in Heq; lia].
  - unfold status_counts. rewrite (kvalue_counts_sum _ status_eqb_spec), length_map. reflexivity.
Qed.

Lemma status_counts_order (df : list Entry) (win lose : Status) (cw cl : nat) :
  Permutation (status_counts df) [(win, cw); (lose, cl)] -> cl < cw ->
  status_counts df = [(win, cw); (lose, cl)].
Proof.
  intros Hp Hlt. symmetry in Hp. apply Permutation_length_2_inv in Hp as [H|H]; [exact H|].
  exfalso. pose proof (kvalue_counts_sorted status_eqb (map e_status df)) as Hs.
  change (kvalue_counts status_eqb (map e_status df)) with (status_counts df) in Hs.
  rewrite H in Hs. apply Sorted_inv in Hs as [_ Hh]. apply HdRel_inv in Hh. simpl in Hh.
  apply Nat.leb_le in Hh. lia.
Qed.

Lemma status_counts_perm (df : list Entry) :
  0 < bezahlt_count df -> 0 < offen_count df ->
  Permutation (status_counts df) [(Bezahlt, bezahlt_count df); (Offen, offen_count df)].
Proof.
  intros Hb Ho. unfold status_counts.
  eapply perm_trans; [apply kvalue_counts_perm|].
  eapply perm_trans; [apply Permutation_map, (status_uniques_both df Hb Ho)|].
  simpl. rewrite !kcount_status. reflexivity.
Qed.

(** X11: when one status has strictly more entries, its slice comes
    first: the streamlit pie colours it green and the other red, the
    batch pie colours it red and the other green. *)
Theorem payment_chart_colours (df : list Entry) :
  (0 < offen_count df < bezahlt_count df ->
     streamlit_payment_chart df = Ok [(Bezahlt, GREEN); (Offen, RED)] /\
     batch_payment_chart df = Ok [(Bezahlt, RED); (Offen, GREEN)]) /\
  (0 < bezahlt_count df < offen_count df ->
     streamlit_payment_chart df = Ok [(Offen, GREEN); (Bezahlt, RED)] /\
     batch_payment_chart df = Ok [(Offen, RED); (Bezahlt, GREEN)]).
Proof.
  unfold streamlit_payment_chart, batch_payment_chart. split; intros [H1 H2].
  - rewrite (status_counts_order df Bezahlt Offen (bezahlt_count df) (offen_count df));
      [split; reflexivity|apply status_counts_perm; lia|lia].
  - rewrite (status_counts_order df Offen Bezahlt (offen_count df) (bezahlt_count df));
      [split; reflexivity| |lia].
    eapply perm_trans; [apply status_counts_perm; lia|]. apply perm_swap.
Qed.

Lemma payment_chart_colours_witness :
  0 < bezahlt_count (example_df "x") < offen_count (example_df "x") /\
  streamlit_payment_chart (example_df "x") = Ok [(Offen, GREEN); (Bezahlt, RED)].
Proof.
  assert (H : 0 < bezahlt_count (example_df "x") < offen_count (example_df "x"))
    by (vm_compute; lia).
  split; [exact H|]. exact (proj1 (proj2 (payment_chart_colours (example_df "x")) H)).
Defined.

(** ** HTML report *)

Lemma ranking_html_concat (rows : list RankRow) (s : string) :
  fold_left (fun acc r => (acc ++ ranking_row_html r)%string) rows s
  = (s ++ fold_right (fun r acc => ranking_row_html r ++ acc) "" rows)%string.
Proof.
  revert s. induction rows as [|r rows IH]; intros s; simpl.
  - symmetry. apply string_app_nil_r.
  - rewrite IH. apply string_app_assoc.
Qed.

Lemma app_dot_nonempty (s : string) : (s ++ ".")%string <> "".
Proof. destruct s; discriminate. Qed.

(** X12: the ranking rows of the report are one HTML block per ranking
    row, in ranking order; the label of a row is its medal on ranks 1 to
    3 and "n." on the others, and never empty. *)
Theorem ranking_html_rows (df : list Entry) :
  let r := create_ranking_table df in
  ranking_html r = fold_right (fun x acc => ranking_row_html x ++ acc) "" r /\
  Forall (fun x => rank_label x <> "" /\
                   (rang x <= 3 -> rank_label x = medal (rang x)) /\
                   (3 < rang x -> rank_label x = (nat_str (rang x) ++ ".")%string)) r.
Proof.
  cbv zeta. split; [apply ranking_html_concat|].
  apply Forall_forall. intros x Hx.
  pose proof (number_from_medal 1 (value_counts (names_col df))) as Hm.
  rewrite Forall_forall in Hm. specialize (Hm x Hx).
  assert (1 <= rang x) as H1.
  { apply (in_map rang) in Hx. unfold create_ranking_table in Hx.
    rewrite number_from_rang in Hx. apply in_seq in Hx. lia. }
  unfold rank_label. rewrite Hm.
  destruct (rang x) as [|[|[|[|k]]]]; [lia| | | |]; cbn - [nat_str];
    repeat split; intros; try lia; try discriminate; try reflexivity.
  apply app_dot_nonempty.
Qed.






(** ** Loading, merging, and the two per-person views *)


Lemma dropna_app (a b : list (option string)) : dropna (a ++ b) = (dropna a ++ dropna b)%list.
Proof. induction a as [|[s|] a IH]; simpl; try rewrite IH; reflexivity. Qed.

(** X16: merging two sheets adds their entries, paid and open counts;
    the persons of the merged sheet number at least those of each part
    and at most their sum. *)
Theorem statistics_merge (df1 df2 : list Entry) :
  let s := create_statistics_table (df1 ++ df2) in
  let s1 := create_statistics_table df1 in
  let s2 := create_statistics_table df2 in
  st_gesamt s = st_gesamt s1 + st_gesamt s2 /\
  st_bezahlt s = st_bezahlt s1 + st_bezahlt s2 /\
  st_offen s = st_offen s1 + st_offen s2 /\
  Nat.max (st_personen s1) (st_personen s2) <= st_personen s <= st_personen s1 + st_personen s2.
Proof.
  cbv zeta. cbn [st_gesamt st_bezahlt st_offen st_personen create_statistics_table].
  unfold bezahlt_count, offen_count, personen_count, nunique, names_col.
  rewrite length_app, !filter_app, !length_app, map_app, dropna_app.
  set (a := dropna (map e_name df1)). set (b := dropna (map e_name df2)).
  assert (forall l x, In x (uniques l) <-> In x l) as Hu by (intros; apply In_uniques).
  assert (forall l, NoDup (uniques l)) as Hnd by (intros; apply uniques_aux_NoDup).
  split; [reflexivity|split; [reflexivity|split; [reflexivity|split]]].
  - apply Nat.max_lub; apply NoDup_incl_length; auto; intros x Hx;
      apply Hu; apply in_or_app; rewrite Hu in Hx; auto.
  - rewrite <- length_app. apply NoDup_incl_length; [apply Hnd|].
    intros x Hx. rewrite Hu in Hx. apply in_app_or in Hx as [Hx|Hx];
      apply in_or_app; [left|right]; apply Hu; exact Hx.
Qed.

(** X17: the person chart and the ranking list the same persons, and a
    person's total in the chart is their count in the ranking. *)
Theorem person_chart_matches_ranking (df : list Entry) :
  Permutation (map ps_name (person_stats df)) (map rname (create_ranking_table df)) /\
  (forall ps x, In ps (person_stats df) -> In x (create_ranking_table df) ->
     ps_name ps = rname x -> ps_gesamt ps = anzahl x).
Proof.
  split.
  - pose proof (Permutation_map fst (person_stats_pairs df)) as Hn.
    rewrite !map_map in Hn. simpl in Hn. rewrite map_id in Hn.
    eapply perm_trans; [exact Hn|]. symmetry. apply ranking_names_perm.
  - intros ps x Hps Hx Heq.
    apply person_stats_In in Hps as [n [_ ->]]. simpl in *.
    pose proof (ranking_counts df) as Hc. rewrite Forall_forall in Hc.
    rewrite (Hc x Hx), <- Heq. apply group_size_sum.
Qed.

(** ** Bounds on the open-boxes table *)

Open Scope Q_scope.

Lemma row_credit_nonneg (e : Entry) (p : string) : 0 <= row_credit e p.
Proof.
  apply dict_get_nonneg, open_step_pos. constructor.
Qed.

Lemma row_credit_own (e : Entry) (n : string) :
  Py.strip (Py.str (e_name e)) = n -> is_sentinel n = false -> row_credit e n == 1.
Proof.
  intros Hn Hs. unfold row_credit, open_step. rewrite Hn, Hs.
  unfold dict_add. simpl. rewrite String.eqb_refl. reflexivity.
Qed.

Lemma credits_sum_own (rows : list Entry) (n : string) :
  is_sentinel n = false ->
  inject_Z (Z.of_nat (length (filter (fun e => String.eqb (Py.strip (Py.str (e_name e))) n) rows)))
  <= credits_sum rows n.
Proof.
  intros Hs. induction rows as [|e rows IH]; cbn [filter length]; [apply Qle_refl|].
  unfold credits_sum in *. cbn [fold_right].
  destruct (String.eqb_spec (Py.strip (Py.str (e_name e))) n) as [He|He]; cbn [length].
  - rewrite inject_succ, (row_credit_own e n He Hs). lra.
  - pose proof (row_credit_nonneg e n). lra.
Qed.

(** X18: an ordinary person's open tally is at least the number of their
    own open entries. *)
Theorem open_tally_own_entries (df : list Entry) (n : string) :
  is_sentinel n = false ->
  inject_Z (Z.of_nat (length (filter (fun e => String.eqb (Py.strip (Py.str (e_name e))) n)
                                     (open_rows df))))
  <= dict_get (open_name_counts df) n.
Proof.
  intros Hs. rewrite open_name_counts_credit. apply credits_sum_own. exact Hs.
Qed.

Lemma open_tally_own_entries_witness :
  is_sentinel "B" = false /\
  inject_Z (Z.of_nat (length (filter (fun e => String.eqb (Py.strip (Py.str (e_name e))) "B")
                                     (open_rows (example_df "Geteilte Kisten")))))
  <= dict_get (open_name_counts (example_df "Geteilte Kisten")) "B".
Proof.
  assert (H : is_sentinel "B" = false) by reflexivity.
  split; [exact H|]. exact (open_tally_own_entries (example_df "Geteilte Kisten") "B" H).
Defined.





Close Scope Q_scope.
